(** * GoMILP: the solve entry point of the branch-and-bound MILP solver

    A shallow embedding of [ilp.go]: the problem and solution records, the
    static table [expectedFailures], [toInitialSubProblem] and [solve].

    [solve] calls three pieces of the package that live in other files (the
    enumeration tree with its search, the integrality test [feasibleForIP])
    and reads the caller's [context.Context].  They are gathered in the
    record [Collaborators]; [solve] is written once, over any such record. *)

From Stdlib Require Import ZArith List String Bool Lia QArith Qround Qabs.
Import ListNotations.
Local Open Scope Z_scope.

Set Implicit Arguments.

(** ** Numbers

    The solver stores [float64] values.  [ilp.go] only copies them, so the
    carrier is left open: a type with the zero value Go gives to an
    uninitialised [float64]. *)
Class Float64 : Type := {
  float64 : Type;
  float64_zero : float64
}.

(** ** Errors

    Go's [error] values are compared by identity.  The sentinels below are
    the two of [ilp.go], the ones exported by gonum's [lp] package and the
    two of the [context] package; [other_error] stands for any other error
    value. *)
Inductive error : Type :=
| INITIAL_RELAXATION_NOT_FEASIBLE
| NO_INTEGER_FEASIBLE_SOLUTION
| lp_ErrBland
| lp_ErrInfeasible
| lp_ErrLinSolve
| lp_ErrUnbounded
| lp_ErrSingular
| lp_ErrZeroColumn
| lp_ErrZeroRow
| context_Canceled
| context_DeadlineExceeded
| other_error (msg : string).

Definition error_eq_dec (e1 e2 : error) : {e1 = e2} + {e1 <> e2}.
Proof. decide equality; apply string_dec. Defined.

(** The decisions of the branch-and-bound procedure.  The first two are
    the ones [ilp.go] names.

    Modelled from the spec: the type [bnbDecision] is declared outside
    [ilp.go]; the three other constructors are the remaining outcomes of
    the per-node procedure (pruned by bound dominance, new incumbent,
    branched). *)
Inductive bnbDecision : Type :=
| SUBPROBLEM_IS_DEGENERATE
| SUBPROBLEM_NOT_FEASIBLE
| WORSE_THAN_INCUMBENT
| BETTER_THAN_INCUMBENT_FEASIBLE
| BETTER_THAN_INCUMBENT_BRANCHING.

(** The pruning decision the spec names for a failure of the relaxation
    solver: [infeasible -> prune-as-infeasible],
    [singular/degenerate -> prune-as-degenerate]. *)
Definition spec_pruning_decision (e : error) : option bnbDecision :=
  match e with
  | lp_ErrInfeasible => Some SUBPROBLEM_NOT_FEASIBLE
  | lp_ErrSingular => Some SUBPROBLEM_IS_DEGENERATE
  | _ => None
  end.

(** [map[error]bnbDecision]: a Go map literal, kept as its list of
    entries; [map_lookup] is the two-valued index expression [m[k]].  The
    keys of the model are the values of [error] above, all comparable;
    indexing with an error whose dynamic type is not comparable panics in
    Go and is outside this model. *)
Definition error_map (V : Type) : Type := list (error * V).

Fixpoint map_lookup (V : Type) (m : error_map V) (k : error) : option V :=
  match m with
  | [] => None
  | (k', v) :: rest => if error_eq_dec k k' then Some v else map_lookup rest k
  end.

Definition expectedFailures : error_map bnbDecision :=
  [ (lp_ErrInfeasible, SUBPROBLEM_IS_DEGENERATE);
    (lp_ErrSingular, SUBPROBLEM_NOT_FEASIBLE) ].

(** ** Records *)

(** [*mat.Dense]: a pointer to a dense matrix, [None] for the nil pointer. *)
Definition Dense `{Float64} : Type := list (list float64).

(** [BranchHeuristic] is declared outside [ilp.go]; the source comment says
    it defaults to [0 == maxFun], an integer enumeration. *)
Definition BranchHeuristic : Type := Z.

Module milpProblem.
Record t `{Float64} : Type := mk {
  c : list float64;
  A : option Dense;
  b : list float64;
  G : option Dense;
  h : list float64;
  integralityConstraints : list bool;
  branchingHeuristic : BranchHeuristic
}.
End milpProblem.

(** Modelled from the spec: the type [bnbConstraint] is declared outside
    [ilp.go].  A bound constraint is (variable index, threshold value,
    direction), the direction being [<=] or [>=]. *)
Inductive direction : Type := LE | GE.

Record bnbConstraint `{Float64} : Type := {
  branchedVariable : nat;
  threshold : float64;
  dir : direction
}.

(** The type [subProblem] is declared outside [ilp.go]; these are the
    fields the composite literal of [toInitialSubProblem] fills. *)
Module subProblem.
Record t `{Float64} : Type := mk {
  id : Z;
  c : list float64;
  A : option Dense;
  b : list float64;
  G : option Dense;
  h : list float64;
  integralityConstraints : list bool;
  bnbConstraints : list bnbConstraint
}.
End subProblem.

(** Modelled from the spec: the type [solution] is declared outside
    [ilp.go], which reads its fields [x] and [err].  A solution is an
    assignment vector, its objective value and an optional failure. *)
Module solution.
Record t `{Float64} : Type := mk {
  x : list float64;
  z : float64;
  err : option error
}.

(** The zero value of the struct ([var val solution]). *)
Definition zero `{Float64} : t := {| x := []; z := float64_zero; err := None |}.
End solution.

Module milpSolution.
Record t `{Float64} : Type := mk {
  solution : solution.t
}.

(** The composite literal [milpSolution{}]. *)
Definition zero `{Float64} : t := {| solution := solution.zero |}.
End milpSolution.

(** ** toInitialSubProblem *)

Definition toInitialSubProblem `{Float64} (p : milpProblem.t) : subProblem.t :=
  {| subProblem.id := 0;
     subProblem.c := milpProblem.c p;
     subProblem.A := milpProblem.A p;
     subProblem.b := milpProblem.b p;
     subProblem.G := milpProblem.G p;
     subProblem.h := milpProblem.h p;
     subProblem.integralityConstraints := milpProblem.integralityConstraints p;
     subProblem.bnbConstraints := [] |}.

(** ** Effects

    [solve] runs the search and then asks the context whether it has
    fired, and it can panic.  A computation takes the state of the world
    (the clock, the scheduler, the context) and gives an outcome and the
    world after it; a panic keeps the world it happened in. *)
Inductive outcome (A : Type) : Type :=
| Return (a : A)
| Panic (msg : string).
Arguments Panic {A} msg.

Definition M (W A : Type) : Type := W -> outcome A * W.

Definition ret {W A : Type} (a : A) : M W A := fun w => (Return a, w).

Definition panic {W A : Type} (msg : string) : M W A := fun w => (Panic msg, w).

Definition bind {W A B : Type} (m : M W A) (k : A -> M W B) : M W B :=
  fun w =>
    match m w with
    | (Return a, w') => k a w'
    | (Panic msg, w') => (Panic msg, w')
    end.

Definition read {W A : Type} (f : W -> A) : M W A := fun w => (Return (f w), w).

Declare Scope go_scope.
Delimit Scope go_scope with go.
Notation "x <- m ;; k" := (bind m (fun x => k))
  (at level 100, m at next level, right associativity) : go_scope.

(** Pointers: [None] is nil.  Reading through a nil pointer panics. *)
Definition is_nil {A : Type} (p : option A) : bool :=
  match p with
  | None => true
  | Some _ => false
  end.

Definition deref {W A : Type} (p : option A) : M W A :=
  match p with
  | Some a => ret a
  | None => panic "invalid memory address or nil pointer dereference"
  end.

(** ** What solve calls

    [newEnumerationTree], [startSearch] and [feasibleForIP] are functions of
    the package defined outside [ilp.go]; [ctx.Err] belongs to the caller's
    context.  The search runs workers, takes time and may itself panic, so
    it is a computation over the world; [ctx.Err] reads the world.
    [newEnumerationTree], [ctx.Err] and [feasibleForIP] are taken to return
    normally and to leave the world as it is: a run in which one of them
    panics (a nil context, say) is outside this model, and nothing below
    speaks about such a run. *)
Record Collaborators `{Float64} : Type := {
  World : Type;
  Ctx : Type;
  bnbMiddleware : Type;
  enumerationTree : Type;
  newEnumerationTree : subProblem.t -> bnbMiddleware -> enumerationTree;
  startSearch : enumerationTree -> Ctx -> Z -> M World (option solution.t);
  ctx_Err : Ctx -> World -> option error;
  feasibleForIP : list bool -> list float64 -> bool
}.

(** ** solve *)

Definition usage_workers : string :=
  "number of workers may not be lower than zero".

Definition usage_length : string :=
  "integrality constraints vector is not same length as vector c".

Definition solve `{Float64} (E : Collaborators) (p : milpProblem.t)
    (ctx : Ctx E) (workers : Z) (instrumentation : bnbMiddleware E)
  : M (World E) (milpSolution.t * option error) :=
  (if workers <=? 0 then panic usage_workers else
   if negb (Nat.eqb (List.length (milpProblem.integralityConstraints p))
                    (List.length (milpProblem.c p)))
   then panic usage_length else
   let initialRelaxation := toInitialSubProblem p in
   let enumTree := newEnumerationTree E initialRelaxation instrumentation in
   incumbent <- startSearch E enumTree ctx workers ;;
   timedOut <- read (ctx_Err E ctx) ;;
   match timedOut with
   | Some cause =>
       val <- (if negb (is_nil incumbent) then deref incumbent
               else ret solution.zero) ;;
       ret ({| milpSolution.solution := val |}, Some cause)
   | None =>
       if is_nil incumbent
       then ret (milpSolution.zero, Some NO_INTEGER_FEASIBLE_SOLUTION) else
       inc <- deref incumbent ;;
       match solution.err inc with
       | Some e => ret (milpSolution.zero, Some e)
       | None =>
           inc <- deref incumbent ;;
           if negb (feasibleForIP E (milpProblem.integralityConstraints p)
                                  (solution.x inc))
           then ret (milpSolution.zero, Some NO_INTEGER_FEASIBLE_SOLUTION) else
           val <- deref incumbent ;;
           ret ({| milpSolution.solution := val |}, None)
       end
   end)%go.

(** ** The search, from the specification

    The enumeration tree is not part of [ilp.go].  To run [solve] on
    concrete problems, and to say what it reports when the root relaxation
    is infeasible, this part models the search as the specification
    describes it, over rational numbers, with the relaxation solver and the
    branching heuristic as arguments.  The workers' interleaving is not
    modelled: nodes are evaluated one at a time, in queue order. *)

#[export] Instance rational_float64 : Float64 :=
  {| float64 := Q; float64_zero := 0%Q |}.

(** Modelled from the spec: [feasibleForIP], defined outside [ilp.go].
    "Integer-feasible means every flagged variable's value is within
    numerical tolerance of an integer." *)
Definition nearInteger (tol v : Q) : bool :=
  Qle_bool (Qabs (v - inject_Z (Qfloor (v + (1 # 2))))) tol.

Fixpoint feasibleForIP_spec (tol : Q) (flags : list bool) (xs : list Q) : bool :=
  match flags, xs with
  | flag :: flags', v :: xs' =>
      implb flag (nearInteger tol v) && feasibleForIP_spec tol flags' xs'
  | _, _ => true
  end.

(** Modelled from the spec: the continuous LP handed to the relaxation
    solver (objective vector, equality matrix and vector, inequality matrix
    and vector). *)
Record LP : Type := {
  objective : list Q;
  eqMatrix : option Dense;
  eqVector : list Q;
  ineqMatrix : list (list Q);
  ineqVector : list Q
}.

Fixpoint unitRow (n i : nat) (one : Q) : list Q :=
  match n with
  | O => []
  | S n' =>
      match i with
      | O => one :: repeat 0%Q n'
      | S i' => 0%Q :: unitRow n' i' one
      end
  end.

Definition boundRow (n : nat) (k : bnbConstraint) : list Q :=
  match dir k with
  | LE => unitRow n (branchedVariable k) 1%Q
  | GE => unitRow n (branchedVariable k) (- (1))%Q
  end.

Definition boundRhs (k : bnbConstraint) : Q :=
  match dir k with
  | LE => threshold k
  | GE => (- threshold k)%Q
  end.

(** Modelled from the spec: [toRelaxation], defined outside [ilp.go].  It
    "assembles the full continuous LP (original constraints + all
    accumulated bound constraints)", dropping the integrality flags. *)
Definition toRelaxation (sp : subProblem.t) : LP :=
  let n := List.length (subProblem.c sp) in
  {| objective := subProblem.c sp;
     eqMatrix := subProblem.A sp;
     eqVector := subProblem.b sp;
     ineqMatrix :=
       match subProblem.G sp with Some rows => rows | None => [] end
       ++ map (boundRow n) (subProblem.bnbConstraints sp);
     ineqVector := subProblem.h sp ++ map boundRhs (subProblem.bnbConstraints sp) |}.

(** Modelled from the spec: [deriveChild], defined outside [ilp.go].  It
    "appends the constraint to the existing bound-constraint sequence and
    returns a new subproblem with a fresh identifier". *)
Definition deriveChild (sp : subProblem.t) (fresh : Z) (k : bnbConstraint)
  : subProblem.t :=
  {| subProblem.id := fresh;
     subProblem.c := subProblem.c sp;
     subProblem.A := subProblem.A sp;
     subProblem.b := subProblem.b sp;
     subProblem.G := subProblem.G sp;
     subProblem.h := subProblem.h sp;
     subProblem.integralityConstraints := subProblem.integralityConstraints sp;
     subProblem.bnbConstraints := subProblem.bnbConstraints sp ++ [k] |}.

(** What evaluating one node leads to. *)
Inductive nodeResult : Type :=
| Pruned (d : bnbDecision)
| Fatal (failed : solution.t)
| Candidate (s : solution.t)
| Branched (left right : subProblem.t).

Definition dominated (incumbent : option solution.t) (relaxed : solution.t) : bool :=
  match incumbent with
  | Some inc => Qle_bool (solution.z inc) (solution.z relaxed)
  | None => false
  end.

(** Modelled from the spec: the per-node decision procedure of the
    enumeration tree (steps 1 to 6), defined outside [ilp.go].  A failure
    found in [expectedFailures] prunes the node, any other failure is
    fatal; then bound dominance, then the integrality test, then the split
    on the variable the heuristic selects. *)
Definition evaluateNode (relaxationSolver : LP -> solution.t)
    (selectBranchVariable : list Q -> list bool -> nat) (tol : Q)
    (incumbent : option solution.t) (fresh : Z) (sp : subProblem.t) : nodeResult :=
  let relaxed := relaxationSolver (toRelaxation sp) in
  match solution.err relaxed with
  | Some e =>
      match map_lookup expectedFailures e with
      | Some d => Pruned d
      | None => Fatal relaxed
      end
  | None =>
      if dominated incumbent relaxed then Pruned WORSE_THAN_INCUMBENT else
      if feasibleForIP_spec tol (subProblem.integralityConstraints sp)
                            (solution.x relaxed)
      then Candidate relaxed else
      let i := selectBranchVariable (solution.x relaxed)
                                    (subProblem.integralityConstraints sp) in
      let v := nth i (solution.x relaxed) 0%Q in
      Branched
        (deriveChild sp fresh
           {| branchedVariable := i; threshold := inject_Z (Qfloor v); dir := LE |})
        (deriveChild sp (fresh + 1)
           {| branchedVariable := i; threshold := inject_Z (Qceiling v); dir := GE |})
  end.

(** The world of the modelled search: whether the caller has cancelled the
    context, how many node evaluations fit before the deadline passes, and
    what the instrumentation sink has been told so far. *)
Record SearchWorld : Type := {
  canceled : bool;
  budget : nat;
  notifications : list (Z * bnbDecision)
}.

(** [ctx.Err()] in that world: [Canceled] once cancelled,
    [DeadlineExceeded] once the deadline has passed, nil before. *)
Definition searchCtxErr (w : SearchWorld) : option error :=
  if canceled w then Some context_Canceled
  else if Nat.eqb (budget w) 0 then Some context_DeadlineExceeded
  else None.

(** Modelled from the spec: the state of the enumeration tree, defined
    outside [ilp.go]: the queue of pending subproblems, the incumbent slot
    and the next fresh identifier. *)
Record enumTree : Type := {
  queue : list subProblem.t;
  incumbentSlot : option solution.t;
  nextId : Z
}.

(** Modelled from the spec: [newEnumerationTree], defined outside
    [ilp.go].  The queue is "initialized with exactly the root", the
    incumbent is "absent at search start". *)
Definition newEnumTree (root : subProblem.t) (instrumentation : unit) : enumTree :=
  {| queue := [root]; incumbentSlot := None; nextId := 1 |}.

(** Modelled from the spec: the search loop of [startSearch], defined
    outside [ilp.go].  The cancellation token is checked before a node is
    dequeued; the search is complete when the queue is empty; a fatal
    failure stops the search and is handed to the caller in the returned
    solution.  Each evaluated node uses one unit of the budget and is
    notified to the sink. *)
Fixpoint searchLoop (relaxationSolver : LP -> solution.t)
    (selectBranchVariable : list Q -> list bool -> nat) (tol : Q)
    (cancel : bool) (left : nat) (log : list (Z * bnbDecision))
    (pending : list subProblem.t) (incumbent : option solution.t) (fresh : Z)
  : option solution.t * SearchWorld :=
  let stop := (incumbent,
               {| canceled := cancel; budget := left; notifications := log |}) in
  if cancel then stop else
  match pending with
  | [] => stop
  | sp :: rest =>
      match left with
      | O => stop
      | S left' =>
          let continue := searchLoop relaxationSolver selectBranchVariable tol
                                     cancel left' in
          match evaluateNode relaxationSolver selectBranchVariable tol
                             incumbent fresh sp with
          | Pruned d =>
              continue (log ++ [(subProblem.id sp, d)]) rest incumbent fresh
          | Fatal failed =>
              (Some failed,
               {| canceled := cancel; budget := left'; notifications := log |})
          | Candidate s =>
              continue (log ++ [(subProblem.id sp, BETTER_THAN_INCUMBENT_FEASIBLE)])
                       rest (Some s) fresh
          | Branched l r =>
              continue (log ++ [(subProblem.id sp, BETTER_THAN_INCUMBENT_BRANCHING)])
                       (rest ++ [l; r]) incumbent (fresh + 2)
          end
      end
  end.

Definition searchFrom (relaxationSolver : LP -> solution.t)
    (selectBranchVariable : list Q -> list bool -> nat) (tol : Q)
    (tree : enumTree) (ctx : unit) (workers : Z)
  : M SearchWorld (option solution.t) :=
  fun w =>
    let r := searchLoop relaxationSolver selectBranchVariable tol
                        (canceled w) (budget w) (notifications w)
                        (queue tree) (incumbentSlot tree) (nextId tree) in
    (Return (fst r), snd r).

(** [solve]'s collaborators, as the specification describes them. *)
Definition specCollaborators (relaxationSolver : LP -> solution.t)
    (selectBranchVariable : list Q -> list bool -> nat) (tol : Q)
  : Collaborators :=
  {| World := SearchWorld;
     Ctx := unit;
     bnbMiddleware := unit;
     enumerationTree := enumTree;
     newEnumerationTree := newEnumTree;
     startSearch := searchFrom relaxationSolver selectBranchVariable tol;
     ctx_Err := fun _ => searchCtxErr;
     feasibleForIP := feasibleForIP_spec tol |}.

(** ** Stand-ins for concrete runs *)

(** A relaxation solver for problems with one free variable and no equality
    rows: minimise [c * x] under the rows [g * x <= h].  It reports
    [lp.ErrInfeasible] when the rows leave no point and [lp.ErrUnbounded]
    when the objective has no minimum. *)
Definition tighten (keep : Q -> Q -> bool) (cur : option Q) (v : Q) : option Q :=
  match cur with
  | None => Some v
  | Some u => if keep u v then Some u else Some v
  end.

Fixpoint interval (rows : list (list Q)) (rhs : list Q)
    (lo hi : option Q) (ok : bool) : option Q * option Q * bool :=
  match rows, rhs with
  | (g :: _) :: rows', hv :: rhs' =>
      match (g ?= 0)%Q with
      | Gt => interval rows' rhs' lo (tighten Qle_bool hi (hv / g)%Q) ok
      | Lt => interval rows' rhs' (tighten (fun u v => Qle_bool v u) lo (hv / g)%Q) hi ok
      | Eq => interval rows' rhs' lo hi (ok && Qle_bool 0 hv)
      end
  | _, _ => (lo, hi, ok)
  end.

Definition failed (e : error) : solution.t :=
  {| solution.x := []; solution.z := 0%Q; solution.err := Some e |}.

Definition solved (cost v : Q) : solution.t :=
  {| solution.x := [v]; solution.z := (cost * v)%Q; solution.err := None |}.

Definition oneVariableSimplex (lp : LP) : solution.t :=
  let cost := nth 0 (objective lp) 0%Q in
  match interval (ineqMatrix lp) (ineqVector lp) None None true with
  | (lo, hi, ok) =>
      let empty := match lo, hi with
                   | Some l, Some u => negb (Qle_bool l u)
                   | _, _ => false
                   end in
      if negb ok || empty then failed lp_ErrInfeasible else
      match (cost ?= 0)%Q with
      | Gt => match lo with Some l => solved cost l | None => failed lp_ErrUnbounded end
      | Lt => match hi with Some u => solved cost u | None => failed lp_ErrUnbounded end
      | Eq => match lo, hi with
              | Some l, _ => solved cost l
              | None, Some u => solved cost u
              | None, None => solved cost 0%Q
              end
      end
  end.

(** A branching heuristic: the first flagged variable whose value is not
    an integer. *)
Fixpoint firstFractional (xs : list Q) (flags : list bool) : nat :=
  match xs, flags with
  | v :: xs', flag :: flags' =>
      if flag && negb (nearInteger 0 v) then O else S (firstFractional xs' flags')
  | _, _ => O
  end.

(** A search that hands back a fixed incumbent, whatever the tree. *)
Definition cannedCollaborators (incumbent : option solution.t)
    (after : option error) (tol : Q) : Collaborators :=
  {| World := unit;
     Ctx := unit;
     bnbMiddleware := unit;
     enumerationTree := subProblem.t;
     newEnumerationTree := fun root _ => root;
     startSearch := fun _ _ _ => ret incumbent;
     ctx_Err := fun _ _ => after;
     feasibleForIP := feasibleForIP_spec tol |}.

(** Concrete problems: minimise [x] under [-x <= -3/2] (that is
    [x >= 3/2]) with [x] integer, and minimise [x] under [x <= -1] and
    [-x <= 0], whose relaxation has no point. *)
Definition oneVar (rows : list (list Q)) (rhs : list Q) : milpProblem.t :=
  {| milpProblem.c := [1%Q];
     milpProblem.A := None;
     milpProblem.b := [];
     milpProblem.G := Some rows;
     milpProblem.h := rhs;
     milpProblem.integralityConstraints := [true];
     milpProblem.branchingHeuristic := 0 |}.

Definition atLeastThreeHalves : milpProblem.t := oneVar [[(- (1))%Q]] [(- (3 # 2))%Q].

Definition emptyRegion : milpProblem.t :=
  oneVar [[1%Q]; [(- (1))%Q]] [(- (1))%Q; 0%Q].

Definition toyCollaborators : Collaborators :=
  specCollaborators oneVariableSimplex firstFractional (1 # 1000000).

Definition freshWorld (steps : nat) : SearchWorld :=
  {| canceled := false; budget := steps; notifications := [] |}.

(** The root relaxation's fractional optimum, and an integer point. *)
Definition fractionalPoint : solution.t := solved 1 (3 # 2).

Definition integerPoint : solution.t := solved 1 2.

(** A solution that carries a failure marker next to an assignment. *)
Definition markedPoint : solution.t :=
  {| solution.x := [2%Q]; solution.z := 2%Q; solution.err := Some lp_ErrLinSolve |}.

Definition worldAfter (left : nat) (log : list (Z * bnbDecision)) : SearchWorld :=
  {| canceled := false; budget := left; notifications := log |}.

(** The call of the search that [solve] makes. *)
Definition searchCall `{Float64} (E : Collaborators) (p : milpProblem.t)
    (ctx : Ctx E) (workers : Z) (instrumentation : bnbMiddleware E)
  : M (World E) (option solution.t) :=
  startSearch E (newEnumerationTree E (toInitialSubProblem p) instrumentation)
              ctx workers.

(** The same problem with another branching heuristic. *)
Definition withBranchingHeuristic `{Float64} (p : milpProblem.t)
    (heuristic : BranchHeuristic) : milpProblem.t :=
  {| milpProblem.c := milpProblem.c p;
     milpProblem.A := milpProblem.A p;
     milpProblem.b := milpProblem.b p;
     milpProblem.G := milpProblem.G p;
     milpProblem.h := milpProblem.h p;
     milpProblem.integralityConstraints := milpProblem.integralityConstraints p;
     milpProblem.branchingHeuristic := heuristic |}.

(** A malformed problem: one variable and no integrality flag. *)
Definition flagsMissing : milpProblem.t :=
  {| milpProblem.c := [1%Q];
     milpProblem.A := None;
     milpProblem.b := [];
     milpProblem.G := None;
     milpProblem.h := [];
     milpProblem.integralityConstraints := [];
     milpProblem.branchingHeuristic := 0 |}.

(** A search that panics after one unit of time. *)
Definition panickingCollaborators (msg : string) : Collaborators :=
  {| World := nat;
     Ctx := unit;
     bnbMiddleware := unit;
     enumerationTree := subProblem.t;
     newEnumerationTree := fun root _ => root;
     startSearch := fun _ _ _ => fun now => (Panic msg, S now);
     ctx_Err := fun _ _ => None;
     feasibleForIP := feasibleForIP_spec 0 |}.



(** Maximise [x] (minimise [-x]) under [x <= 3/2] with [x] integer. *)
Definition atMostThreeHalves : milpProblem.t :=
  {| milpProblem.c := [(- (1))%Q];
     milpProblem.A := None;
     milpProblem.b := [];
     milpProblem.G := Some [[1%Q]];
     milpProblem.h := [3 # 2];
     milpProblem.integralityConstraints := [true];
     milpProblem.branchingHeuristic := 0 |}.

(** The two children of its root: [x <= 1] and [x >= 2]. *)
Definition leftChild : subProblem.t :=
  deriveChild (toInitialSubProblem atMostThreeHalves) 1
    {| branchedVariable := 0; threshold := 1%Q; dir := LE |}.

Definition rightChild : subProblem.t :=
  deriveChild (toInitialSubProblem atMostThreeHalves) 2
    {| branchedVariable := 0; threshold := 2%Q; dir := GE |}.

(** A relaxation solver whose linear solve breaks down on the LPs that
    hold the row [-x <= -2]: there it fails with [lp.ErrLinSolve], a
    failure that is not in [expectedFailures], and gives no assignment;
    everywhere else it answers as [oneVariableSimplex]. *)
Definition breaksDown (lp : LP) : bool :=
  existsb (fun bound => Qeq_bool bound (- (2))%Q) (ineqVector lp).

Definition brittleSimplex (lp : LP) : solution.t :=
  if breaksDown lp then failed lp_ErrLinSolve else oneVariableSimplex lp.

Definition brittleCollaborators : Collaborators :=
  specCollaborators brittleSimplex firstFractional (1 # 1000000).

(** * Properties *)

(** ** The failure table *)

(** C1, evaluated on the code.  The specification maps the solver's
    infeasible failure to the prune-as-infeasible decision and its singular
    failure to the prune-as-degenerate decision.  The table of [ilp.go] has
    the two decisions the other way round: looking up [lp.ErrInfeasible]
    gives [SUBPROBLEM_IS_DEGENERATE], looking up [lp.ErrSingular] gives
    [SUBPROBLEM_NOT_FEASIBLE], and neither is the decision the
    specification names. *)
Theorem expectedFailures_decisions_swapped :
  map_lookup expectedFailures lp_ErrInfeasible = Some SUBPROBLEM_IS_DEGENERATE /\
  map_lookup expectedFailures lp_ErrSingular = Some SUBPROBLEM_NOT_FEASIBLE /\
  map_lookup expectedFailures lp_ErrInfeasible <> spec_pruning_decision lp_ErrInfeasible /\
  map_lookup expectedFailures lp_ErrSingular <> spec_pruning_decision lp_ErrSingular.
Proof.
  repeat split; try reflexivity; cbn; discriminate.
Qed.

(** The table and the specification agree on which failures are expected:
    exactly the infeasible and the singular one. *)
Lemma expectedFailures_domain (e : error) :
  map_lookup expectedFailures e = None <-> spec_pruning_decision e = None.
Proof.
  destruct e; cbn; split; intro Hn; try reflexivity; discriminate.
Qed.

(** ** The root subproblem *)

(** C3.  The root subproblem made from a problem has identifier 0, no bound
    constraint, and the problem's objective, equality data, inequality data
    and integrality flags, unchanged. *)
Theorem toInitialSubProblem_is_root `{Float64} (p : milpProblem.t) :
  subProblem.id (toInitialSubProblem p) = 0 /\
  subProblem.bnbConstraints (toInitialSubProblem p) = [] /\
  subProblem.c (toInitialSubProblem p) = milpProblem.c p /\
  subProblem.A (toInitialSubProblem p) = milpProblem.A p /\
  subProblem.b (toInitialSubProblem p) = milpProblem.b p /\
  subProblem.G (toInitialSubProblem p) = milpProblem.G p /\
  subProblem.h (toInitialSubProblem p) = milpProblem.h p /\
  subProblem.integralityConstraints (toInitialSubProblem p)
    = milpProblem.integralityConstraints p.
Proof.
  unfold toInitialSubProblem; cbn. repeat split.
Qed.

(** ** solve *)

Section SolveFacts.

Context `{F : Float64} (E : Collaborators).
Variables (p : milpProblem.t) (ctx : Ctx E) (workers : Z)
          (instrumentation : bnbMiddleware E).

Local Abbreviation search := (searchCall E p ctx workers instrumentation).

(** Both usage checks pass on a well-formed call. *)
Lemma solve_checks_pass :
  0 < workers ->
  List.length (milpProblem.integralityConstraints p) = List.length (milpProblem.c p) ->
  (workers <=? 0) = false /\
  negb (Nat.eqb (List.length (milpProblem.integralityConstraints p))
                (List.length (milpProblem.c p))) = false.
Proof.
  intros Hw Hlen. split.
  - apply Z.leb_gt. exact Hw.
  - rewrite Hlen, Nat.eqb_refl. reflexivity.
Qed.

(** [solve] on a well-formed call whose search has returned. *)
Ltac after_search Hw Hlen Hs :=
  unfold solve;
  destruct (solve_checks_pass Hw Hlen) as [-> ->];
  unfold bind at 1; unfold searchCall in Hs; rewrite Hs;
  unfold bind, read, ret, deref, panic; cbn.

(** C2.  A call with a worker count of zero or less, or with an
    integrality-flag sequence whose length is not that of the objective,
    panics with the usage message, in the world it was called in: whatever
    the enumeration tree and its search are, they have not run, and nothing
    is returned. *)
Theorem solve_usage_error_panics (w : World E) :
  workers <= 0 \/
  List.length (milpProblem.integralityConstraints p) <> List.length (milpProblem.c p) ->
  solve E p ctx workers instrumentation w = (Panic usage_workers, w) \/
  solve E p ctx workers instrumentation w = (Panic usage_length, w).
Proof.
  intros Hbad. unfold solve.
  destruct (workers <=? 0) eqn:Hw.
  - left. reflexivity.
  - right. destruct Hbad as [Hle | Hlen].
    + apply Z.leb_gt in Hw. lia.
    + apply Nat.eqb_neq in Hlen. rewrite Hlen. reflexivity.
Qed.

(** C4.  When the context has fired by the time the search has returned,
    [solve] returns the incumbent the search found (the zero solution when
    there is none) together with the context's error, which is not nil. *)
Theorem solve_cancelled_returns_incumbent_and_cause
    (w w' : World E) (incumbent : option solution.t) (cause : error) :
  0 < workers ->
  List.length (milpProblem.integralityConstraints p) = List.length (milpProblem.c p) ->
  search w = (Return incumbent, w') ->
  ctx_Err E ctx w' = Some cause ->
  solve E p ctx workers instrumentation w =
    (Return ({| milpSolution.solution :=
                  match incumbent with
                  | Some best => best
                  | None => solution.zero
                  end |}, Some cause), w').
Proof.
  intros Hw Hlen Hs Hfired.
  after_search Hw Hlen Hs.
  rewrite Hfired.
  destruct incumbent as [best|]; reflexivity.
Qed.

(** C5.  When the search has returned no incumbent and the context has not
    fired, [solve] reports [NO_INTEGER_FEASIBLE_SOLUTION]. *)
Theorem solve_without_incumbent_reports_no_solution (w w' : World E) :
  0 < workers ->
  List.length (milpProblem.integralityConstraints p) = List.length (milpProblem.c p) ->
  search w = (Return None, w') ->
  ctx_Err E ctx w' = None ->
  solve E p ctx workers instrumentation w =
    (Return (milpSolution.zero, Some NO_INTEGER_FEASIBLE_SOLUTION), w').
Proof.
  intros Hw Hlen Hs Hlive.
  after_search Hw Hlen Hs.
  rewrite Hlive. reflexivity.
Qed.

(** C6.  When the search has returned an incumbent without failure marker,
    the context has not fired, and the incumbent's assignment fails
    [feasibleForIP] against the problem's integrality flags, [solve]
    reports [NO_INTEGER_FEASIBLE_SOLUTION] and not the incumbent. *)
Theorem solve_rejects_incumbent_failing_revalidation
    (w w' : World E) (best : solution.t) :
  0 < workers ->
  List.length (milpProblem.integralityConstraints p) = List.length (milpProblem.c p) ->
  search w = (Return (Some best), w') ->
  ctx_Err E ctx w' = None ->
  solution.err best = None ->
  feasibleForIP E (milpProblem.integralityConstraints p) (solution.x best) = false ->
  solve E p ctx workers instrumentation w =
    (Return (milpSolution.zero, Some NO_INTEGER_FEASIBLE_SOLUTION), w').
Proof.
  intros Hw Hlen Hs Hlive Hclean Hfrac.
  after_search Hw Hlen Hs.
  rewrite Hlive, Hclean, Hfrac. reflexivity.
Qed.

(** C9.  When the context has fired and the search has returned the nil
    incumbent, [solve] returns the zero solution with the context's error:
    it does not panic, the nil pointer is not read. *)
Theorem solve_cancelled_without_incumbent_is_safe
    (w w' : World E) (cause : error) :
  0 < workers ->
  List.length (milpProblem.integralityConstraints p) = List.length (milpProblem.c p) ->
  search w = (Return None, w') ->
  ctx_Err E ctx w' = Some cause ->
  solve E p ctx workers instrumentation w =
    (Return ({| milpSolution.solution := solution.zero |}, Some cause), w') /\
  forall msg w'', solve E p ctx workers instrumentation w <> (Panic msg, w'').
Proof.
  intros Hw Hlen Hs Hfired.
  assert (Hrun : solve E p ctx workers instrumentation w =
                 (Return ({| milpSolution.solution := solution.zero |}, Some cause), w')).
  { after_search Hw Hlen Hs. rewrite Hfired. reflexivity. }
  split; [exact Hrun|].
  intros msg w'' Hpanic. rewrite Hrun in Hpanic. discriminate.
Qed.

(** C10.  When [solve] returns a nil error, the assignment of the returned
    solution passes [feasibleForIP] against the problem's integrality
    flags. *)
Theorem solve_success_is_integer_feasible
    (w w' : World E) (result : milpSolution.t) :
  solve E p ctx workers instrumentation w = (Return (result, None), w') ->
  feasibleForIP E (milpProblem.integralityConstraints p)
                (solution.x (milpSolution.solution result)) = true.
Proof.
  unfold solve.
  destruct (workers <=? 0); [discriminate|].
  destruct (negb _); [discriminate|].
  unfold bind at 1; change (startSearch E _ ctx workers w) with (search w).
  destruct (search w) as [[incumbent | msg] w1]; [|discriminate].
  unfold bind, read, ret, deref, panic; cbn.
  destruct (ctx_Err E ctx w1) as [cause|].
  { destruct incumbent; cbn; discriminate. }
  destruct incumbent as [best|]; cbn; [|discriminate].
  destruct (solution.err best); [discriminate|].
  destruct (feasibleForIP E _ _) eqn:Hok; cbn; [|discriminate].
  intros [= <- _]. exact Hok.
Qed.


End SolveFacts.

(** ** An infeasible root relaxation *)






(** * Concrete runs *)

(** C2 at a call with zero workers: the panic leaves the world as it was,
    with its whole budget and no node notified. *)
Lemma solve_usage_error_panics_witness :
  (0 <= 0 \/
   List.length (milpProblem.integralityConstraints atLeastThreeHalves)
     <> List.length (milpProblem.c atLeastThreeHalves)) /\
  (solve toyCollaborators atLeastThreeHalves tt 0 tt (freshWorld 10)
     = (Panic usage_workers, freshWorld 10) \/
   solve toyCollaborators atLeastThreeHalves tt 0 tt (freshWorld 10)
     = (Panic usage_length, freshWorld 10)).
Proof.
  split; [left; lia|].
  apply (@solve_usage_error_panics _ toyCollaborators atLeastThreeHalves tt 0 tt
           (freshWorld 10)).
  left; lia.
Defined.

(** C4 at a run whose deadline passes as the search finds [x = 2]. *)
Lemma solve_cancelled_returns_incumbent_and_cause_witness :
  searchCall toyCollaborators atLeastThreeHalves tt 1 tt (freshWorld 3)
    = (Return (Some integerPoint),
       worldAfter 0 [(0, BETTER_THAN_INCUMBENT_BRANCHING);
                     (1, SUBPROBLEM_IS_DEGENERATE);
                     (2, BETTER_THAN_INCUMBENT_FEASIBLE)]) /\
  solve toyCollaborators atLeastThreeHalves tt 1 tt (freshWorld 3)
    = (Return ({| milpSolution.solution := integerPoint |},
               Some context_DeadlineExceeded),
       worldAfter 0 [(0, BETTER_THAN_INCUMBENT_BRANCHING);
                     (1, SUBPROBLEM_IS_DEGENERATE);
                     (2, BETTER_THAN_INCUMBENT_FEASIBLE)]).
Proof.
  split; [reflexivity|].
  apply (@solve_cancelled_returns_incumbent_and_cause _ toyCollaborators
           atLeastThreeHalves tt 1 tt (freshWorld 3) _ (Some integerPoint)
           context_DeadlineExceeded);
    [lia | reflexivity | reflexivity | reflexivity].
Defined.

(** C5 at the problem whose region is empty. *)
Lemma solve_without_incumbent_reports_no_solution_witness :
  searchCall toyCollaborators emptyRegion tt 1 tt (freshWorld 10)
    = (Return None, worldAfter 9 [(0, SUBPROBLEM_IS_DEGENERATE)]) /\
  solve toyCollaborators emptyRegion tt 1 tt (freshWorld 10)
    = (Return (milpSolution.zero, Some NO_INTEGER_FEASIBLE_SOLUTION),
       worldAfter 9 [(0, SUBPROBLEM_IS_DEGENERATE)]).
Proof.
  split; [reflexivity|].
  apply (@solve_without_incumbent_reports_no_solution _ toyCollaborators
           emptyRegion tt 1 tt (freshWorld 10));
    [lia | reflexivity | reflexivity | reflexivity].
Defined.

(** C6 at a search that hands back the fractional root optimum. *)
Lemma solve_rejects_incumbent_failing_revalidation_witness :
  feasibleForIP_spec (1 # 1000000) [true] (solution.x fractionalPoint) = false /\
  solve (cannedCollaborators (Some fractionalPoint) None (1 # 1000000))
        atLeastThreeHalves tt 1 tt tt
    = (Return (milpSolution.zero, Some NO_INTEGER_FEASIBLE_SOLUTION), tt).
Proof.
  split; [reflexivity|].
  apply (@solve_rejects_incumbent_failing_revalidation _
           (cannedCollaborators (Some fractionalPoint) None (1 # 1000000))
           atLeastThreeHalves tt 1 tt tt tt fractionalPoint);
    [lia | reflexivity | reflexivity | reflexivity | reflexivity | reflexivity].
Defined.


(** The run of the search on [atMostThreeHalves] with the solver that
    breaks down: the root gives [x = 3/2] and is split, the left child
    gives the integer assignment [x = 1] and becomes the incumbent, the
    right child fails with [lp.ErrLinSolve]. *)
Example brittle_run :
  evaluateNode brittleSimplex firstFractional (1 # 1000000) None 1
               (toInitialSubProblem atMostThreeHalves)
    = Branched leftChild rightChild /\
  evaluateNode brittleSimplex firstFractional (1 # 1000000) None 3 leftChild
    = Candidate (solved (- (1)) 1) /\
  evaluateNode brittleSimplex firstFractional (1 # 1000000)
               (Some (solved (- (1)) 1)) 3 rightChild
    = Fatal (failed lp_ErrLinSolve) /\
  searchCall brittleCollaborators atMostThreeHalves tt 1 tt (freshWorld 10)
    = (Return (Some (failed lp_ErrLinSolve)),
       worldAfter 7 [(0, BETTER_THAN_INCUMBENT_BRANCHING);
                     (1, BETTER_THAN_INCUMBENT_FEASIBLE)]).
Proof.
  repeat split.
Qed.



(** C9 at a run whose deadline passes before any incumbent is found. *)
Lemma solve_cancelled_without_incumbent_is_safe_witness :
  searchCall toyCollaborators atLeastThreeHalves tt 1 tt (freshWorld 2)
    = (Return None,
       worldAfter 0 [(0, BETTER_THAN_INCUMBENT_BRANCHING);
                     (1, SUBPROBLEM_IS_DEGENERATE)]) /\
  solve toyCollaborators atLeastThreeHalves tt 1 tt (freshWorld 2)
    = (Return ({| milpSolution.solution := solution.zero |},
               Some context_DeadlineExceeded),
       worldAfter 0 [(0, BETTER_THAN_INCUMBENT_BRANCHING);
                     (1, SUBPROBLEM_IS_DEGENERATE)]).
Proof.
  split; [reflexivity|].
  apply (@solve_cancelled_without_incumbent_is_safe _ toyCollaborators
           atLeastThreeHalves tt 1 tt (freshWorld 2)
           (worldAfter 0 [(0, BETTER_THAN_INCUMBENT_BRANCHING);
                          (1, SUBPROBLEM_IS_DEGENERATE)])
           context_DeadlineExceeded);
    [lia | reflexivity | reflexivity | reflexivity].
Defined.

(** C10 at the run that ends in success with [x = 2]. *)
Lemma solve_success_is_integer_feasible_witness :
  solve toyCollaborators atLeastThreeHalves tt 1 tt (freshWorld 10)
    = (Return ({| milpSolution.solution := integerPoint |}, None),
       worldAfter 7 [(0, BETTER_THAN_INCUMBENT_BRANCHING);
                     (1, SUBPROBLEM_IS_DEGENERATE);
                     (2, BETTER_THAN_INCUMBENT_FEASIBLE)]) /\
  feasibleForIP_spec (1 # 1000000) [true] [2%Q] = true.
Proof.
  split; [reflexivity|].
  apply (@solve_success_is_integer_feasible _ toyCollaborators atLeastThreeHalves
           tt 1 tt (freshWorld 10)
           (worldAfter 7 [(0, BETTER_THAN_INCUMBENT_BRANCHING);
                          (1, SUBPROBLEM_IS_DEGENERATE);
                          (2, BETTER_THAN_INCUMBENT_FEASIBLE)])
           {| milpSolution.solution := integerPoint |}).
  reflexivity.
Defined.

(** * Further properties of solve *)

Section SolveMore.

Context `{F : Float64} (E : Collaborators).
Variables (p : milpProblem.t) (ctx : Ctx E) (workers : Z)
          (instrumentation : bnbMiddleware E).

Local Abbreviation search := (searchCall E p ctx workers instrumentation).

(** [solve] past its two usage checks: the search, then the assembly. *)
Ltac enter_solve Hw Hlen :=
  unfold solve;
  destruct (solve_checks_pass p Hw Hlen) as [-> ->];
  unfold bind at 1;
  change (startSearch E _ ctx workers) with search.

Ltac assemble := unfold bind, read, ret, deref, panic; cbn.

(** The worker count is checked first: with no worker the panic carries
    the worker message even when the lengths differ too; the length message
    is that of a call with at least one worker. *)
Theorem solve_usage_checks_in_order (w : World E) :
  (workers <= 0 ->
   solve E p ctx workers instrumentation w = (Panic usage_workers, w)) /\
  (0 < workers ->
   List.length (milpProblem.integralityConstraints p) <> List.length (milpProblem.c p) ->
   solve E p ctx workers instrumentation w = (Panic usage_length, w)).
Proof.
  unfold solve. split.
  - intros Hle. apply Z.leb_le in Hle. rewrite Hle. reflexivity.
  - intros Hw Hlen. apply Z.leb_gt in Hw. rewrite Hw.
    apply Nat.eqb_neq in Hlen. rewrite Hlen. reflexivity.
Qed.

(** A panic of the search goes through [solve] unchanged: same message,
    same world. *)
Theorem solve_propagates_search_panic (w w1 : World E) (msg : string) :
  0 < workers ->
  List.length (milpProblem.integralityConstraints p) = List.length (milpProblem.c p) ->
  search w = (Panic msg, w1) ->
  solve E p ctx workers instrumentation w = (Panic msg, w1).
Proof.
  intros Hw Hlen Hs. enter_solve Hw Hlen. rewrite Hs. reflexivity.
Qed.

(** When the context has not fired and the incumbent carries a failure
    marker, [solve] returns the empty solution with that marker, whether or
    not the incumbent's assignment passes [feasibleForIP]. *)
Theorem solve_propagates_failure_marker
    (w w' : World E) (best : solution.t) (marker : error) :
  0 < workers ->
  List.length (milpProblem.integralityConstraints p) = List.length (milpProblem.c p) ->
  search w = (Return (Some best), w') ->
  ctx_Err E ctx w' = None ->
  solution.err best = Some marker ->
  solve E p ctx workers instrumentation w =
    (Return (milpSolution.zero, Some marker), w').
Proof.
  intros Hw Hlen Hs Hlive Hmark. enter_solve Hw Hlen. rewrite Hs.
  assemble. rewrite Hlive, Hmark. reflexivity.
Qed.

(** [solve] returns a nil error exactly on a well-formed call whose search
    has returned an incumbent without failure marker that passes
    [feasibleForIP], the context not having fired; the solution returned is
    then that incumbent. *)
Theorem solve_success_iff (w w' : World E) (result : milpSolution.t) :
  solve E p ctx workers instrumentation w = (Return (result, None), w') <->
  (0 < workers /\
   List.length (milpProblem.integralityConstraints p) = List.length (milpProblem.c p) /\
   exists best : solution.t,
     search w = (Return (Some best), w') /\
     ctx_Err E ctx w' = None /\
     solution.err best = None /\
     feasibleForIP E (milpProblem.integralityConstraints p) (solution.x best) = true /\
     result = {| milpSolution.solution := best |}).
Proof.
  split.
  - unfold solve.
    destruct (workers <=? 0) eqn:Hw; [discriminate|].
    destruct (Nat.eqb _ _) eqn:Hlen; cbn [negb]; [|discriminate].
    apply Z.leb_gt in Hw. apply Nat.eqb_eq in Hlen.
    unfold bind at 1. change (startSearch E _ ctx workers) with search.
    destruct (search w) as [[incumbent | msg] w1]; [|discriminate].
    assemble.
    destruct (ctx_Err E ctx w1) as [cause|] eqn:Hctx.
    { destruct incumbent; cbn; discriminate. }
    destruct incumbent as [best|]; cbn; [|discriminate].
    destruct (solution.err best) eqn:Herr; [discriminate|].
    destruct (feasibleForIP E _ _) eqn:Hok; cbn; [|discriminate].
    intros [= <- <-].
    repeat split; try assumption. exists best. repeat split; assumption.
  - intros (Hw & Hlen & best & Hs & Hlive & Hclean & Hok & ->).
    enter_solve Hw Hlen. rewrite Hs. assemble.
    rewrite Hlive, Hclean, Hok. reflexivity.
Qed.

(** [solve] does not make [INITIAL_RELAXATION_NOT_FEASIBLE] itself: when
    it returns that error, the error is the one the context gave or the
    failure marker of the incumbent the search handed back. *)
Theorem solve_never_originates_initial_relaxation_error
    (w w' : World E) (result : milpSolution.t) :
  solve E p ctx workers instrumentation w
    = (Return (result, Some INITIAL_RELAXATION_NOT_FEASIBLE), w') ->
  ctx_Err E ctx w' = Some INITIAL_RELAXATION_NOT_FEASIBLE \/
  exists best : solution.t,
    search w = (Return (Some best), w') /\
    solution.err best = Some INITIAL_RELAXATION_NOT_FEASIBLE.
Proof.
  unfold solve.
  destruct (workers <=? 0); [discriminate|].
  destruct (negb _); [discriminate|].
  unfold bind at 1. change (startSearch E _ ctx workers) with search.
  destruct (search w) as [[incumbent | msg] w1]; [|discriminate].
  assemble.
  destruct (ctx_Err E ctx w1) as [cause|] eqn:Hctx.
  { destruct incumbent; cbn; intros [= _ -> <-]; left; exact Hctx. }
  destruct incumbent as [best|]; cbn; [|discriminate].
  destruct (solution.err best) as [marker|] eqn:Herr.
  { intros [= _ -> <-]. right. exists best. split; [reflexivity | exact Herr]. }
  destruct (feasibleForIP E _ _); cbn; discriminate.
Qed.

(** Unless the context has fired, the solution [solve] returns carries no
    failure marker: it is the empty solution or an accepted incumbent. *)
Theorem solve_returns_unmarked_solution_unless_cancelled
    (w w' : World E) (result : milpSolution.t) (e : option error) :
  solve E p ctx workers instrumentation w = (Return (result, e), w') ->
  ctx_Err E ctx w' = None ->
  solution.err (milpSolution.solution result) = None.
Proof.
  unfold solve.
  destruct (workers <=? 0); [discriminate|].
  destruct (negb _); [discriminate|].
  unfold bind at 1. change (startSearch E _ ctx workers) with search.
  destruct (search w) as [[incumbent | msg] w1]; [|discriminate].
  assemble.
  destruct (ctx_Err E ctx w1) as [cause|] eqn:Hctx.
  { destruct incumbent; cbn; intros [= _ _ <-] Hlive; congruence. }
  destruct incumbent as [best|]; cbn; [|intros [= <- _ _] _; reflexivity].
  destruct (solution.err best) as [marker|] eqn:Herr.
  { intros [= <- _ _] _. reflexivity. }
  destruct (feasibleForIP E _ _); cbn; intros [= <- _ _] _;
    [exact Herr | reflexivity].
Qed.

(** The branching heuristic chosen in the problem does not reach the
    search: the root subproblem does not carry it and [solve] reads it
    nowhere else, so changing it changes nothing of a run. *)
Theorem solve_ignores_branchingHeuristic
    (heuristic : BranchHeuristic) (w : World E) :
  toInitialSubProblem (withBranchingHeuristic p heuristic) = toInitialSubProblem p /\
  solve E (withBranchingHeuristic p heuristic) ctx workers instrumentation w
    = solve E p ctx workers instrumentation w.
Proof.
  split; reflexivity.
Qed.

End SolveMore.

(** ** Concrete runs *)

(** The order of the usage checks at a call that fails both, and at one
    that fails the second only. *)
Lemma solve_usage_checks_in_order_witness :
  solve toyCollaborators flagsMissing tt 0 tt (freshWorld 10)
    = (Panic usage_workers, freshWorld 10) /\
  solve toyCollaborators flagsMissing tt 1 tt (freshWorld 10)
    = (Panic usage_length, freshWorld 10).
Proof.
  split.
  - apply (proj1 (@solve_usage_checks_in_order _ toyCollaborators flagsMissing
                    tt 0 tt (freshWorld 10))). lia.
  - apply (proj2 (@solve_usage_checks_in_order _ toyCollaborators flagsMissing
                    tt 1 tt (freshWorld 10))); [lia | cbn; discriminate].
Defined.

(** A search that panics at time 5: [solve] panics with its message and
    leaves the clock at 6. *)
Lemma solve_propagates_search_panic_witness :
  solve (panickingCollaborators "simplex failed") atLeastThreeHalves tt 1 tt 5%nat
    = (Panic "simplex failed", 6%nat).
Proof.
  apply (@solve_propagates_search_panic _ (panickingCollaborators "simplex failed")
           atLeastThreeHalves tt 1 tt 5%nat 6%nat "simplex failed");
    [lia | reflexivity | reflexivity].
Defined.

(** An incumbent with the integer assignment [x = 2] and a failure marker:
    the marker is returned, the assignment is not. *)
Lemma solve_propagates_failure_marker_witness :
  feasibleForIP_spec (1 # 1000000) [true] (solution.x markedPoint) = true /\
  solve (cannedCollaborators (Some markedPoint) None (1 # 1000000))
        atLeastThreeHalves tt 1 tt tt
    = (Return (milpSolution.zero, Some lp_ErrLinSolve), tt).
Proof.
  split; [reflexivity|].
  apply (@solve_propagates_failure_marker _
           (cannedCollaborators (Some markedPoint) None (1 # 1000000))
           atLeastThreeHalves tt 1 tt tt tt markedPoint lp_ErrLinSolve);
    [lia | reflexivity | reflexivity | reflexivity | reflexivity].
Defined.

Lemma solve_success_iff_witness :
  solve (cannedCollaborators (Some integerPoint) None (1 # 1000000))
        atLeastThreeHalves tt 1 tt tt
    = (Return ({| milpSolution.solution := integerPoint |}, None), tt).
Proof.
  apply (proj2 (@solve_success_iff _
                  (cannedCollaborators (Some integerPoint) None (1 # 1000000))
                  atLeastThreeHalves tt 1 tt tt tt
                  {| milpSolution.solution := integerPoint |})).
  split; [lia|]. split; [reflexivity|].
  exists integerPoint. repeat split.
Defined.

(** A context whose [Err] gives the sentinel: the only way [solve] returns
    it when the search has found nothing. *)
Lemma solve_never_originates_initial_relaxation_error_witness :
  ctx_Err (cannedCollaborators None (Some INITIAL_RELAXATION_NOT_FEASIBLE) 0) tt tt
    = Some INITIAL_RELAXATION_NOT_FEASIBLE \/
  exists best : solution.t,
    searchCall (cannedCollaborators None (Some INITIAL_RELAXATION_NOT_FEASIBLE) 0)
               atLeastThreeHalves tt 1 tt tt = (Return (Some best), tt) /\
    solution.err best = Some INITIAL_RELAXATION_NOT_FEASIBLE.
Proof.
  apply (@solve_never_originates_initial_relaxation_error _
           (cannedCollaborators None (Some INITIAL_RELAXATION_NOT_FEASIBLE) 0)
           atLeastThreeHalves tt 1 tt tt tt milpSolution.zero).
  reflexivity.
Defined.

Lemma solve_returns_unmarked_solution_unless_cancelled_witness :
  solution.err (milpSolution.solution (@milpSolution.zero rational_float64)) = None.
Proof.
  apply (@solve_returns_unmarked_solution_unless_cancelled _
           (cannedCollaborators (Some markedPoint) None (1 # 1000000))
           atLeastThreeHalves tt 1 tt tt tt milpSolution.zero (Some lp_ErrLinSolve));
    reflexivity.
Defined.
